(** * execvpe.c: an environment-scoped process launcher and its fork/exec/wait driver

    The C file defines [execvpe], which swaps the process-wide [environ]
    pointer, delegates to the platform's [execvp] and puts the pointer back
    when [execvp] returns, and a [main] that forks, runs [execvpe] in the
    child and waits for it in the parent.

    The program is embedded as a finite tree of the operations it performs
    on its process (reads and writes of [environ], calls into libc and the
    kernel).  An interpreter gives the tree its meaning over an explicit
    process state and an explicit platform, and records the operations it
    executed, in order. *)

From stdpp Require Import base option list gmap strings pretty.
From Stdlib Require Import ZArith Lia.

Local Open Scope Z_scope.
Local Open Scope string_scope.

(** ** Process state *)

(** Addresses.  A [char **] is the address of an array of [char *]. *)
Abbreviation ptr := Z (only parsing).

(** A [char *] that is either [NULL] or points to an immutable string. *)
Abbreviation cstr := (option string) (only parsing).

Record State : Type := mkState {
  environ : ptr;                  (* extern char **environ; *)
  heap : gmap Z (list cstr);      (* the arrays of char* of the process *)
  stack_top : ptr;                (* where the next automatic array goes *)
  errno : Z                       (* libc's error number *)
}.

Definition set_environ (p : ptr) (s : State) : State :=
  {| environ := p; heap := heap s; stack_top := stack_top s; errno := errno s |}.

Definition set_errno (e : Z) (s : State) : State :=
  {| environ := environ s; heap := heap s; stack_top := stack_top s; errno := e |}.

Definition push_array (init : list cstr) (s : State) : State :=
  {| environ := environ s;
     heap := <[stack_top s := init]> (heap s);
     stack_top := stack_top s + 1;
     errno := errno s |}.

(** ** The platform: what the headers and libc provide *)

Record Platform : Type := mkPlatform {
  (* <paths.h> *)
  _PATH_DEFPATH : string;
  (* <wait.h> *)
  WIFEXITED : Z -> bool;
  WEXITSTATUS : Z -> Z;
  (* execvp(file, argv) in a given process state: [None] when the image is
     replaced (the call does not return), [Some (r, e)] when it returns [r]
     with errno set to [e]. *)
  execvp : string -> ptr -> State -> option (Z * Z);
  (* fork(): the value returned in this process, and errno afterwards. *)
  fork : State -> Z * Z;
  (* wait(&status): the value returned, the status stored, errno afterwards. *)
  wait : State -> Z * Z * Z;
  (* strerror, as used by perror. *)
  strerror : Z -> string
}.

(** ** Operations of a process and programs over them *)

Inductive procE : Type -> Type :=
| GetEnviron : procE ptr                          (* read environ *)
| SetEnviron (p : ptr) : procE unit               (* environ = p *)
| Execvp (file : string) (argv : ptr) : procE Z
| Fork : procE Z
| Wait : procE (Z * Z)                            (* (result, status) *)
| Printf (text : string) : procE unit
| Perror (msg : string) : procE unit
| Alloca (init : list cstr) : procE ptr.          (* char *a[] = {...}; *)

Inductive prog (R : Type) : Type :=
| Ret (r : R)
| Vis {X : Type} (e : procE X) (k : X -> prog R).

Arguments Ret {R} r.
Arguments Vis {R X} e k.

Fixpoint bind {A B : Type} (p : prog A) (f : A -> prog B) : prog B :=
  match p with
  | Ret a => f a
  | Vis e k => Vis e (fun x => bind (k x) f)
  end.

Definition trigger {X : Type} (e : procE X) : prog X := Vis e Ret.

(** [prog] is a monad; programs are written with stdpp's notations
    [x ← p; k] and [p;; k]. *)
#[global] Instance prog_ret : MRet prog := @Ret.
#[global] Instance prog_bind : MBind prog := fun A B f p => bind p f.

(** ** What an execution leaves behind *)

Inductive action : Type :=
| ARead (v : ptr)                                   (* environ was read as v *)
| AWrite (v : ptr)                                  (* environ = v *)
| AExecvp (file : string) (argv env : ptr) (r : option Z)
    (* execvp(file, argv) was called while environ was env; it returned r,
       or did not return *)
| AFork (pid : Z)
| AWait (r status : Z)
| AStdout (text : string)
    (* printf produced text for standard output; stdio passes it on at
       once or holds it in its buffer until the process exits *)
| AStderr (text : string)                      (* perror wrote text *)
| AAlloca (p : ptr) (init : list cstr).

Inductive outcome (R : Type) : Type :=
| Returned (r : R) (s : State) (t : list action)
    (* control came back with r, in state s, after the actions t *)
| Replaced (s : State) (t : list action).
    (* the process image was replaced in state s, after the actions t;
       nothing of the program runs any more *)

Arguments Returned {R} r s t.
Arguments Replaced {R} s t.

Definition trace {R : Type} (o : outcome R) : list action :=
  match o with Returned _ _ t => t | Replaced _ t => t end.

Definition after {R : Type} (a : action) (o : outcome R) : outcome R :=
  match o with
  | Returned r s t => Returned r s (a :: t)
  | Replaced s t => Replaced s (a :: t)
  end.

Definition newline : string := String (Ascii.ascii_of_nat 10) "".

(** What perror(msg) writes to standard error. *)
Definition perror_text (P : Platform) (msg : string) (s : State) : string :=
  msg +:+ ": " +:+ strerror P (errno s) +:+ newline.

Section WithPlatform.

Context (P : Platform).

(** One operation on one state: the action to record, and the answer with
    the next state unless the operation does not return. *)
Definition handle {X : Type} (e : procE X) (s : State)
  : action * option (X * State) :=
  match e in procE X return action * option (X * State) with
  | GetEnviron => (ARead (environ s), Some (environ s, s))
  | SetEnviron p => (AWrite p, Some (tt, set_environ p s))
  | Execvp file argv =>
      match execvp P file argv s with
      | None => (AExecvp file argv (environ s) None, None)
      | Some (r, e) =>
          (AExecvp file argv (environ s) (Some r), Some (r, set_errno e s))
      end
  | Fork =>
      let '(pid, e) := fork P s in
      (AFork pid, Some (pid, set_errno e s))
  | Wait =>
      let '(r, status, e) := wait P s in
      (AWait r status, Some ((r, status), set_errno e s))
  | Printf text => (AStdout text, Some (tt, s))
  | Perror msg => (AStderr (perror_text P msg s), Some (tt, s))
  | Alloca init =>
      (AAlloca (stack_top s) init, Some (stack_top s, push_array init s))
  end.

Fixpoint run {R : Type} (p : prog R) (s : State) : outcome R :=
  match p with
  | Ret r => Returned r s []
  | Vis e k =>
      match handle e s with
      | (a, Some (x, s')) => after a (run (k x) s')
      | (a, None) => Replaced s [a]
      end
  end.

End WithPlatform.

(** ** The program *)

(** int execvpe(const char *file, char *const argv[], char *const envp[]) *)
Definition execvpe (file : string) (argv envp : ptr) : prog Z :=
  old_environ ← trigger GetEnviron;
  trigger (SetEnviron envp);;
  result ← trigger (Execvp file argv);
  trigger (SetEnviron old_environ);;
  mret result.

(** The texts of the two printf calls that report on the child. *)
Definition exited_with_code (code : Z) : string :=
  newline +:+ "Child process exited with code " +:+ pretty code +:+ newline.

Definition exited_with_error : string :=
  newline +:+ "Child process exited with error" +:+ newline.

Section Main.

Context (P : Platform).

(** The body of [switch (pid)]: [Some v] when it executed [return v],
    [None] when control left the switch at its closing brace. *)
Definition main_switch (pid : Z) (args new_envp : ptr) : prog (option Z) :=
  if decide (pid = -1) then
    trigger (Perror "Failed to fork");;
    mret (Some 1)
  else if decide (pid = 0) then
    execvpe "env" args new_envp;;
    trigger (Perror "Failed to execute execvpe");;
    mret (Some 1)
  else
    '(wait_result, status) ← trigger Wait;
    if decide (wait_result = -1) then
      trigger (Perror "Failed to wait for the child process");;
      mret (Some 1)
    else if WIFEXITED P status then
      trigger (Printf (exited_with_code (WEXITSTATUS P status)));;
      mret (Some 0)
    else
      trigger (Printf exited_with_error);;
      mret None.

(** int main() *)
Definition main : prog Z :=
  let path := _PATH_DEFPATH P in
  trigger (Printf (path +:+ newline));;
  args ← trigger (Alloca [Some "env"; None]);
  new_envp ← trigger (Alloca [Some "PATH=/bin:/usr/bin"; None]);
  pid ← trigger Fork;
  returned ← main_switch pid args new_envp;
  match returned with
  | Some v => mret v
  | None => mret 0
  end.

End Main.

(** ** Observations on outcomes and traces *)

Definition final_state {R : Type} (o : outcome R) : State :=
  match o with Returned _ s _ => s | Replaced s _ => s end.

(** [prepend t o]: the actions [t] happened before those of [o]. *)
Definition prepend {R : Type} (t : list action) (o : outcome R) : outcome R :=
  match o with
  | Returned r s t' => Returned r s (t ++ t')
  | Replaced s t' => Replaced s (t ++ t')
  end.

(** What was executed after the call to [execvp]. *)
Fixpoint after_execvp (t : list action) : list action :=
  match t with
  | [] => []
  | AExecvp _ _ _ _ :: t' => t'
  | _ :: t' => after_execvp t'
  end.

(** The values assigned to [environ], in order. *)
Fixpoint environ_writes (t : list action) : list Z :=
  match t with
  | [] => []
  | AWrite v :: t' => v :: environ_writes t'
  | _ :: t' => environ_writes t'
  end.

(** What the calls to execvp returned ([None]: did not return), in order. *)
Fixpoint execvp_results (t : list action) : list (option Z) :=
  match t with
  | [] => []
  | AExecvp _ _ _ r :: t' => r :: execvp_results t'
  | _ :: t' => execvp_results t'
  end.

Definition is_environ_write (a : action) : bool :=
  match a with AWrite _ => true | _ => false end.

(** An action that only reads or assigns [environ], or is the call to
    [execvp]. *)
Definition environ_or_execvp (a : action) : bool :=
  match a with
  | ARead _ | AWrite _ | AExecvp _ _ _ _ => true
  | _ => false
  end.

(** The three errors: fork() returned -1, wait() returned -1, execvp()
    returned. *)
Definition fork_failed (a : action) : bool :=
  match a with AFork pid => bool_decide (pid = -1) | _ => false end.

Definition wait_failed (a : action) : bool :=
  match a with AWait r _ => bool_decide (r = -1) | _ => false end.

Definition exec_failed (a : action) : bool :=
  match a with AExecvp _ _ _ (Some _) => true | _ => false end.

Definition failed (a : action) : bool :=
  fork_failed a || wait_failed a || exec_failed a.

(** The message main passes to perror for each of them. *)
Definition failure_message (a : action) : string :=
  match a with
  | AFork _ => "Failed to fork"
  | AWait _ _ => "Failed to wait for the child process"
  | AExecvp _ _ _ _ => "Failed to execute execvpe"
  | _ => ""
  end.

(** Kinds of actions, and how many actions of a kind a trace has. *)
Definition is_fork (a : action) : bool :=
  match a with AFork _ => true | _ => false end.

Definition is_wait (a : action) : bool :=
  match a with AWait _ _ => true | _ => false end.

Definition is_execvp (a : action) : bool :=
  match a with AExecvp _ _ _ _ => true | _ => false end.

Definition is_stderr (a : action) : bool :=
  match a with AStderr _ => true | _ => false end.

(** The exit code main gave, if it returned. *)
Definition exit_code (o : outcome Z) : option Z :=
  match o with Returned code _ _ => Some code | Replaced _ _ => None end.

Definition count (f : action -> bool) (t : list action) : nat :=
  length (List.filter f t).

(** execvp returns -1 when it returns (POSIX). *)
Definition posix_execvp (P : Platform) : Prop :=
  forall file argv s r e, execvp P file argv s = Some (r, e) -> r = -1.

(** The state in which main calls fork: its two arrays are on the stack. *)
Definition main_locals (s : State) : State :=
  push_array [Some "PATH=/bin:/usr/bin"; None] (push_array [Some "env"; None] s).

(** What main did before calling fork. *)
Definition main_prologue (P : Platform) (s : State) : list action :=
  [AStdout (_PATH_DEFPATH P +:+ newline);
   AAlloca (stack_top s) [Some "env"; None];
   AAlloca (stack_top s + 1) [Some "PATH=/bin:/usr/bin"; None]].

(** The runs of main, by the answers of the platform. *)
Inductive main_runs (P : Platform) (s : State) : outcome Z -> Prop :=
| fork_error e :
    fork P (main_locals s) = (-1, e) ->
    let s2 := set_errno e (main_locals s) in
    main_runs P s
      (Returned 1 s2
         (main_prologue P s ++
          [AFork (-1); AStderr (perror_text P "Failed to fork" s2)]))
| child_replaced e :
    fork P (main_locals s) = (0, e) ->
    let s2 := set_errno e (main_locals s) in
    execvp P "env" (stack_top s) (set_environ (stack_top s + 1) s2) = None ->
    main_runs P s
      (Replaced (set_environ (stack_top s + 1) s2)
         (main_prologue P s ++
          [AFork 0; ARead (environ s); AWrite (stack_top s + 1);
           AExecvp "env" (stack_top s) (stack_top s + 1) None]))
| child_exec_error e r e' :
    fork P (main_locals s) = (0, e) ->
    let s2 := set_errno e (main_locals s) in
    execvp P "env" (stack_top s) (set_environ (stack_top s + 1) s2)
      = Some (r, e') ->
    main_runs P s
      (Returned 1 (set_errno e' s2)
         (main_prologue P s ++
          [AFork 0; ARead (environ s); AWrite (stack_top s + 1);
           AExecvp "env" (stack_top s) (stack_top s + 1) (Some r);
           AWrite (environ s);
           AStderr (perror_text P "Failed to execute execvpe"
                      (set_errno e' s2))]))
| wait_error pid e status e' :
    fork P (main_locals s) = (pid, e) -> pid <> -1 -> pid <> 0 ->
    let s2 := set_errno e (main_locals s) in
    wait P s2 = (-1, status, e') ->
    main_runs P s
      (Returned 1 (set_errno e' s2)
         (main_prologue P s ++
          [AFork pid; AWait (-1) status;
           AStderr (perror_text P "Failed to wait for the child process"
                      (set_errno e' s2))]))
| child_exited pid e r status e' :
    fork P (main_locals s) = (pid, e) -> pid <> -1 -> pid <> 0 ->
    let s2 := set_errno e (main_locals s) in
    wait P s2 = (r, status, e') -> r <> -1 ->
    WIFEXITED P status = true ->
    main_runs P s
      (Returned 0 (set_errno e' s2)
         (main_prologue P s ++
          [AFork pid; AWait r status;
           AStdout (exited_with_code (WEXITSTATUS P status))]))
| child_terminated pid e r status e' :
    fork P (main_locals s) = (pid, e) -> pid <> -1 -> pid <> 0 ->
    let s2 := set_errno e (main_locals s) in
    wait P s2 = (r, status, e') -> r <> -1 ->
    WIFEXITED P status = false ->
    main_runs P s
      (Returned 0 (set_errno e' s2)
         (main_prologue P s ++
          [AFork pid; AWait r status; AStdout exited_with_error])).

(** ** A concrete platform, for running the program on examples

    A Linux/glibc-like instance: the macros of <wait.h> and <paths.h> as
    glibc defines them, and an [execvp] that looks the file up along the
    PATH of the environment that [environ] designates at the time of the
    call, in a given list of executable files, and fails with ENOENT when
    it finds none.  [fork] and [wait] answer as told. *)
Module Sample.

Definition ENOENT : Z := 2.
Definition ECHILD : Z := 10.
Definition EAGAIN : Z := 11.

Fixpoint split_on (c : Ascii.ascii) (s : string) : list string :=
  match s with
  | EmptyString => [EmptyString]
  | String a s' =>
      if Ascii.eqb a c then EmptyString :: split_on c s'
      else match split_on c s' with
           | [] => [String a EmptyString]
           | w :: ws => String a w :: ws
           end
  end.

Fixpoint strip_prefix (p s : string) : option string :=
  match p, s with
  | EmptyString, _ => Some s
  | String a p', String b s' =>
      if Ascii.eqb a b then strip_prefix p' s' else None
  | String _ _, EmptyString => None
  end.

(** getenv over a NULL-terminated array of "NAME=value" strings. *)
Fixpoint getenv (name : string) (env : list cstr) : option string :=
  match env with
  | [] => None
  | None :: _ => None
  | Some entry :: rest =>
      match strip_prefix (name +:+ "=") entry with
      | Some v => Some v
      | None => getenv name rest
      end
  end.

Definition search_path (s : State) : list string :=
  match heap s !! environ s with
  | Some env =>
      match getenv "PATH" env with
      | Some v => split_on (Ascii.ascii_of_nat 58) v
      | None => ["/bin"; "/usr/bin"]
      end
  | None => ["/bin"; "/usr/bin"]
  end.

Definition resolvable (fs : list string) (file : string) (s : State) : bool :=
  existsb (fun dir => bool_decide (dir +:+ "/" +:+ file ∈ fs)) (search_path s).

Definition platform (fs : list string) (fork_answer : Z * Z)
    (wait_answer : Z * Z * Z) : Platform :=
  {| _PATH_DEFPATH := "/usr/bin:/bin";
     WIFEXITED := fun status => Z.eqb (Z.land status 127) 0;
     WEXITSTATUS := fun status => Z.shiftr (Z.land status 65280) 8;
     execvp := fun file argv s =>
       if resolvable fs file s then None else Some (-1, ENOENT);
     fork := fun s => fork_answer;
     wait := fun s => wait_answer;
     strerror := fun e =>
       if decide (e = ENOENT) then "No such file or directory"
       else if decide (e = ECHILD) then "No child processes"
       else if decide (e = EAGAIN) then "Resource temporarily unavailable"
       else "Unknown error " +:+ pretty e |}.

(** The executables of the example file system. *)
Definition fs : list string := ["/usr/bin/env"; "/bin/sh"].

(** A process whose environment is the array at address 100, with an
    argument array at 101 and a replacement environment at 102. *)
Definition s0 : State :=
  {| environ := 100;
     heap := {[ 100 := [Some "HOME=/root"; Some "PATH=/sbin"; None];
                101 := [Some "prog"; None];
                102 := [Some "PATH=/bin:/usr/bin"; None] ]};
     stack_top := 200;
     errno := 0 |}.

(** The platform in a child (fork answered 0). *)
Definition child : Platform := platform fs (0, 0) (0, 0, 0).

(** The same with no executable anywhere. *)
Definition child_nothing_to_exec : Platform := platform [] (0, 0) (0, 0, 0).

(** fork fails. *)
Definition no_fork : Platform := platform fs (-1, EAGAIN) (0, 0, 0).

(** In the parent of child 77, when wait fails, when the child exits with
    code 3, and when it is killed by signal 9. *)
Definition parent_wait_fails : Platform := platform fs (77, 0) (-1, 0, ECHILD).
Definition parent_child_exits_3 : Platform := platform fs (77, 0) (77, 768, 0).
Definition parent_child_killed : Platform := platform fs (77, 0) (77, 9, 0).


(** In the parent of child 77, when the child exited with code 1. *)
Definition parent_child_exits_1 : Platform := platform fs (77, 0) (77, 256, 0).

End Sample.

(** ** Running programs *)

(** Case analysis on membership in a trace that is known action by
    action. *)
Ltac trace_member H :=
  unfold main_prologue in H; cbn in H;
  repeat (apply elem_of_cons in H; destruct H as [H | H]);
  [ .. | by apply elem_of_nil in H ]; simplify_eq.

Section RunFacts.

Context (P : Platform).

Lemma prepend_nil {R} (o : outcome R) : prepend [] o = o.
Proof. by destruct o. Qed.

Lemma prepend_cons {R} a t (o : outcome R) :
  prepend (a :: t) o = after a (prepend t o).
Proof. by destruct o. Qed.

(** Sequencing: the second program starts where the first returned, and
    does not start when the first did not return. *)
Lemma run_bind {A B} (p : prog A) (f : A -> prog B) s :
  run P (p ≫= f) s =
  match run P p s with
  | Returned a s' t => prepend t (run P (f a) s')
  | Replaced s' t => Replaced s' t
  end.
Proof.
  revert s. induction p as [a | X e k IH]; intros s.
  - simpl. by rewrite prepend_nil.
  - change (Vis e k ≫= f) with (Vis e (fun x => k x ≫= f)). simpl.
    destruct (handle P e s) as [a [[x s'] | ]]; [ | done].
    rewrite IH. destruct (run P (k x) s'); simpl; [by rewrite prepend_cons | done].
Qed.

(** The two ways a call to [execvpe] can go. *)
Lemma run_execvpe file argv envp s :
  run P (execvpe file argv envp) s =
  match execvp P file argv (set_environ envp s) with
  | None =>
      Replaced (set_environ envp s)
        [ARead (environ s); AWrite envp; AExecvp file argv envp None]
  | Some (r, e) =>
      Returned r (set_errno e s)
        [ARead (environ s); AWrite envp; AExecvp file argv envp (Some r);
         AWrite (environ s)]
  end.
Proof.
  unfold execvpe. cbn.
  destruct (execvp P file argv (set_environ envp s)) as [[r e] | ]; done.
Qed.

End RunFacts.

(** Every run of main is one of the six of [main_runs]. *)
Lemma run_main_cases (P : Platform) (s : State) :
  main_runs P s (run P (main P) s).
Proof.
  unfold main. cbn -[main_switch].
  destruct (fork P _) as [pid e] eqn:Hfork.
  cbn -[main_switch]. rewrite run_bind. unfold main_switch.
  destruct (decide (pid = -1)) as [-> | Hpid1].
  { cbn. by apply fork_error. }
  destruct (decide (pid = 0)) as [-> | Hpid0].
  { rewrite run_bind, run_execvpe.
    destruct (execvp P _ _ _) as [[r e'] | ] eqn:Hexec; cbn.
    - by eapply child_exec_error.
    - by eapply child_replaced. }
  cbn. destruct (wait P _) as [[r status] e'] eqn:Hwait. cbn.
  destruct (decide (r = -1)) as [-> | Hr].
  { cbn. by eapply wait_error. }
  destruct (WIFEXITED P status) eqn:Hexited; cbn.
  - by eapply child_exited.
  - by eapply child_terminated.
Qed.

(** ** The launcher *)

(** execvp searches the PATH of the environment installed by execvpe, not
    the one of the caller: "env" is in /usr/bin, the caller's PATH is
    /sbin, the replacement's is /bin:/usr/bin. *)
Example execvpe_env_found_on_new_path :
  run Sample.child (execvpe "env" 101 102) Sample.s0
  = Replaced (set_environ 102 Sample.s0)
      [ARead 100; AWrite 102; AExecvp "env" 101 102 None].
Proof. vm_compute; reflexivity. Qed.

Example execvpe_env_not_found_on_old_path :
  run Sample.child (execvpe "env" 101 100) Sample.s0
  = Returned (-1) (set_errno Sample.ENOENT Sample.s0)
      [ARead 100; AWrite 100; AExecvp "env" 101 100 (Some (-1)); AWrite 100].
Proof. vm_compute; reflexivity. Qed.

(** C1. When the underlying execvp fails, returning [r] to execvpe, the
    call to execvpe returns, its last action before returning is to assign
    the saved pointer back to [environ], [environ] is afterwards what it
    was before the call, and the value returned is [r], the failure
    indication of execvp. *)
Theorem execvpe_failure_restores_environ
    (P : Platform) (file : string) (argv envp : ptr) (s : State) (r e : Z) :
  execvp P file argv (set_environ envp s) = Some (r, e) ->
  exists s' t,
    run P (execvpe file argv envp) s
      = Returned r s' (t ++ [AWrite (environ s)])
    /\ environ s' = environ s.
Proof.
  intros Hfail. rewrite run_execvpe, Hfail.
  exists (set_errno e s),
    [ARead (environ s); AWrite envp; AExecvp file argv envp (Some r)].
  done.
Qed.

Lemma execvpe_failure_restores_environ_witness :
  execvp Sample.child "nosuchprog" 101 (set_environ 102 Sample.s0)
    = Some (-1, 2)
  /\ exists s' t,
       run Sample.child (execvpe "nosuchprog" 101 102) Sample.s0
         = Returned (-1) s' (t ++ [AWrite (environ Sample.s0)])
       /\ environ s' = environ Sample.s0.
Proof.
  split; [vm_compute; reflexivity | ].
  apply (execvpe_failure_restores_environ
           Sample.child "nosuchprog" 101 102 Sample.s0 (-1) 2).
  vm_compute; reflexivity.
Defined.

(** C2. Every call execvpe(file, argv, envp) begins with these three
    actions, in this order: it reads [environ] (the value it saves), it
    assigns [envp] to [environ], and it calls execvp(file, argv) while
    [environ] is [envp]; what execvp does is what the platform decides in
    the state where [envp] is installed. *)
Theorem execvpe_saves_installs_then_execs
    (P : Platform) (file : string) (argv envp : ptr) (s : State) :
  exists rest,
    trace (run P (execvpe file argv envp) s)
      = ARead (environ s) :: AWrite envp
        :: AExecvp file argv envp
             (fst <$> execvp P file argv (set_environ envp s))
        :: rest.
Proof.
  rewrite run_execvpe.
  destruct (execvp P file argv (set_environ envp s)) as [[r e] | ];
    eexists; reflexivity.
Qed.

(** C3. The assignment that restores [environ] is executed exactly when
    execvp failed.  When execvp succeeds the image is replaced, control
    does not come back and nothing is executed after the call; when it
    fails, what is executed after the call is the restoring assignment,
    and execvpe returns. *)
Theorem execvpe_restores_only_on_failure
    (P : Platform) (file : string) (argv envp : ptr) (s : State) :
  let o := run P (execvpe file argv envp) s in
  match execvp P file argv (set_environ envp s) with
  | None =>
      o = Replaced (final_state o) (trace o)
      /\ after_execvp (trace o) = []
  | Some (r, _) =>
      o = Returned r (final_state o) (trace o)
      /\ after_execvp (trace o) = [AWrite (environ s)]
  end.
Proof.
  cbv zeta. rewrite run_execvpe.
  destruct (execvp P file argv (set_environ envp s)) as [[r e] | ]; done.
Qed.

(** C4. Two calls to execvpe in sequence, each with inputs on which execvp
    fails, return with [environ] as it was before the first call. *)
Theorem execvpe_twice_failing_preserves_environ
    (P : Platform) (file1 : string) (argv1 envp1 : ptr)
    (file2 : string) (argv2 envp2 : ptr) (s : State) (r1 e1 r2 e2 : Z) :
  execvp P file1 argv1 (set_environ envp1 s) = Some (r1, e1) ->
  execvp P file2 argv2 (set_environ envp2 (set_errno e1 s)) = Some (r2, e2) ->
  exists s' t,
    run P (execvpe file1 argv1 envp1;; execvpe file2 argv2 envp2) s
      = Returned r2 s' t
    /\ environ s' = environ s.
Proof.
  intros H1 H2. rewrite run_bind, run_execvpe, H1, run_execvpe, H2.
  eexists _, _. split; [reflexivity | done].
Qed.

Lemma execvpe_twice_failing_preserves_environ_witness :
  exists s' t,
    run Sample.child
      (execvpe "nosuchprog" 101 102;; execvpe "sh" 101 100) Sample.s0
      = Returned (-1) s' t
    /\ environ s' = environ Sample.s0.
Proof.
  apply (execvpe_twice_failing_preserves_environ
           Sample.child "nosuchprog" 101 102 "sh" 101 100 Sample.s0
           (-1) 2 (-1) 2);
    vm_compute; reflexivity.
Defined.

(** C8. When execvpe returns, the value it returns is the value execvp
    returned, unchanged: execvp was called once, in the state with [envp]
    installed, it returned, and execvpe returns that same value; on a
    platform whose execvp returns -1 when it fails, execvpe returns -1. *)
Theorem execvpe_returns_what_execvp_returned
    (P : Platform) (file : string) (argv envp : ptr) (s s' : State)
    (r : Z) (t : list action) :
  run P (execvpe file argv envp) s = Returned r s' t ->
  (exists e, execvp P file argv (set_environ envp s) = Some (r, e))
  /\ execvp_results t = [Some r]
  /\ (posix_execvp P -> r = -1).
Proof.
  rewrite run_execvpe.
  destruct (execvp P file argv (set_environ envp s)) as [[r0 e] | ] eqn:Hexec;
    [ | discriminate].
  intros [= <- <- <-]. split; [by exists e | ]. split; [done | ].
  intros Hposix. by eapply Hposix.
Qed.

Lemma execvpe_returns_what_execvp_returned_witness :
  (exists e, execvp Sample.child "nosuchprog" 101 (set_environ 102 Sample.s0)
             = Some (-1, e))
  /\ execvp_results
       [ARead 100; AWrite 102; AExecvp "nosuchprog" 101 102 (Some (-1));
        AWrite 100]
     = [Some (-1)]
  /\ (posix_execvp Sample.child -> -1 = -1).
Proof.
  apply (execvpe_returns_what_execvp_returned
           Sample.child "nosuchprog" 101 102 Sample.s0
           (set_errno 2 Sample.s0)).
  vm_compute; reflexivity.
Defined.

(** C10, as the code has it.  A call to execvpe performs no action other
    than reading and assigning [environ] and calling execvp, and leaves
    the arrays of the process (those of argv and envp among them) and the
    stack as they were.  When the call fails, the state afterwards is the
    state before with errno set by the failing execvp: [environ] is back
    to its value, having held [envp] in between.  When execvp succeeds,
    the image is replaced in the state before with [envp] installed. *)
Theorem execvpe_frame
    (P : Platform) (file : string) (argv envp : ptr) (s : State) :
  let o := run P (execvpe file argv envp) s in
  heap (final_state o) = heap s
  /\ stack_top (final_state o) = stack_top s
  /\ forallb environ_or_execvp (trace o) = true
  /\ match o with
     | Returned _ s' t =>
         (exists e, s' = set_errno e s)
         /\ environ s' = environ s
         /\ environ_writes t = [envp; environ s]
     | Replaced s' _ => s' = set_environ envp s
     end.
Proof.
  cbv zeta. rewrite run_execvpe.
  destruct (execvp P file argv (set_environ envp s)) as [[r e] | ];
    repeat split; by try exists e.
Qed.

(** C10, as stated, fails: after a failing call errno is no longer what it
    was, so not every variable other than [environ] is unchanged. *)
Lemma execvpe_failing_call_changes_errno :
  run Sample.child (execvpe "nosuchprog" 101 102) Sample.s0
    = Returned (-1) (set_errno Sample.ENOENT Sample.s0)
        [ARead 100; AWrite 102; AExecvp "nosuchprog" 101 102 (Some (-1));
         AWrite 100]
  /\ errno (set_errno Sample.ENOENT Sample.s0) <> errno Sample.s0.
Proof.
  split; [vm_compute; reflexivity | ]. cbn. unfold Sample.ENOENT. lia.
Qed.

(** ** The driver *)

(** The child whose exec succeeds becomes env, with the one-entry
    environment. *)
Example main_child_becomes_env :
  run Sample.child (main Sample.child) Sample.s0
  = Replaced (set_environ 201 (main_locals Sample.s0))
      (main_prologue Sample.child Sample.s0
       ++ [AFork 0; ARead 100; AWrite 201; AExecvp "env" 200 201 None]).
Proof. vm_compute; reflexivity. Qed.

Example main_child_exec_fails :
  run Sample.child_nothing_to_exec (main Sample.child_nothing_to_exec)
    Sample.s0
  = Returned 1 (set_errno Sample.ENOENT (main_locals Sample.s0))
      (main_prologue Sample.child_nothing_to_exec Sample.s0
       ++ [AFork 0; ARead 100; AWrite 201;
           AExecvp "env" 200 201 (Some (-1)); AWrite 100;
           AStderr ("Failed to execute execvpe: No such file or directory"
                    +:+ newline)]).
Proof. vm_compute; reflexivity. Qed.

Example main_fork_fails :
  run Sample.no_fork (main Sample.no_fork) Sample.s0
  = Returned 1 (set_errno Sample.EAGAIN (main_locals Sample.s0))
      (main_prologue Sample.no_fork Sample.s0
       ++ [AFork (-1);
           AStderr ("Failed to fork: Resource temporarily unavailable"
                    +:+ newline)]).
Proof. vm_compute; reflexivity. Qed.

Example main_wait_fails :
  run Sample.parent_wait_fails (main Sample.parent_wait_fails) Sample.s0
  = Returned 1 (set_errno Sample.ECHILD (main_locals Sample.s0))
      (main_prologue Sample.parent_wait_fails Sample.s0
       ++ [AFork 77; AWait (-1) 0;
           AStderr ("Failed to wait for the child process: No child processes"
                    +:+ newline)]).
Proof. vm_compute; reflexivity. Qed.

Example main_child_exits_3 :
  run Sample.parent_child_exits_3 (main Sample.parent_child_exits_3) Sample.s0
  = Returned 0 (main_locals Sample.s0)
      (main_prologue Sample.parent_child_exits_3 Sample.s0
       ++ [AFork 77; AWait 77 768;
           AStdout (newline +:+ "Child process exited with code 3"
                    +:+ newline)]).
Proof. vm_compute; reflexivity. Qed.

Example main_child_killed :
  run Sample.parent_child_killed (main Sample.parent_child_killed) Sample.s0
  = Returned 0 (main_locals Sample.s0)
      (main_prologue Sample.parent_child_killed Sample.s0
       ++ [AFork 77; AWait 77 9;
           AStdout (newline +:+ "Child process exited with error"
                    +:+ newline)]).
Proof. vm_compute; reflexivity. Qed.

(** C5. The exit code of main, from what the platform answers.  When fork
    returns -1 the code is 1.  In the child (fork returned 0) the code is
    1 when execvp returns, and main gives no code when execvp succeeds:
    the image is replaced.  In the parent the code is 1 when wait returns
    -1 and 0 otherwise, whether main then reports a normal exit of the
    child or reaches its end after the other report.  No run gives another
    code.  Read off the run itself: when main returns, the code is 1 if one
    of the three errors happened in the run and 0 otherwise, and no error
    happened in the run in which it does not return. *)
Theorem main_exit_code (P : Platform) (s : State) :
  let pid := (fork P (main_locals s)).1 in
  let s2 := set_errno (fork P (main_locals s)).2 (main_locals s) in
  let o := run P (main P) s in
  exit_code o
  = (if decide (pid = -1) then Some 1
     else if decide (pid = 0) then
       match execvp P "env" (stack_top s) (set_environ (stack_top s + 1) s2)
       with
       | Some _ => Some 1
       | None => None
       end
     else if decide ((wait P s2).1.1 = -1) then Some 1
     else Some 0)
  /\ match o with
     | Returned code _ t =>
         code = if existsb fork_failed t || existsb wait_failed t
                   || existsb exec_failed t
                then 1 else 0
     | Replaced _ t =>
         existsb fork_failed t || existsb wait_failed t
         || existsb exec_failed t
         = false
     end.
Proof.
  cbv zeta.
  destruct (run_main_cases P s) as [e Hfork s2 | e Hfork s2 Hexec
    | e r e' Hfork s2 Hexec | pid e status e' Hfork Hpid1 Hpid0 s2 Hwait
    | pid e r status e' Hfork Hpid1 Hpid0 s2 Hwait Hr Hexited
    | pid e r status e' Hfork Hpid1 Hpid0 s2 Hwait Hr Hexited];
    rewrite Hfork; cbn [fst snd]; fold s2; rewrite ?Hexec, ?Hwait;
    cbn [fst snd exit_code]; repeat case_decide; try done;
    (split; [done | ]); unfold main_prologue; cbn;
    rewrite ?bool_decide_eq_false_2 by done; done.
Qed.

(** C6. When one of the three errors happens in a run of main, main
    returns 1; after the failed operation it only restores [environ] (in
    the child, inside execvpe) and writes to standard error the message of
    that error, followed by the platform's description of errno; it
    attempts nothing again. *)
Theorem main_failure_reported_and_fatal
    (P : Platform) (s : State) (a : action) :
  a ∈ trace (run P (main P) s) -> failed a = true ->
  exists s' pre post,
    run P (main P) s
      = Returned 1 s'
          (pre ++ a :: post
           ++ [AStderr (perror_text P (failure_message a) s')])
    /\ forallb is_environ_write post = true.
Proof.
  intros Hin Hfailed.
  destruct (run_main_cases P s); cbn in Hin; trace_member Hin;
    unfold failed in Hfailed; cbn in Hfailed;
    rewrite ?bool_decide_eq_false_2 in Hfailed by done;
    try discriminate.
  - by exists s2, (main_prologue P s), [].
  - eexists _, (main_prologue P s ++ [AFork 0; ARead _; AWrite _])%list,
      [AWrite _].
    by rewrite <- (assoc_L (++)).
  - eexists _, (main_prologue P s ++ [AFork pid])%list, [].
    by rewrite <- (assoc_L (++)).
Qed.

Lemma main_failure_reported_and_fatal_witness :
  (exists s' pre post,
     run Sample.no_fork (main Sample.no_fork) Sample.s0
       = Returned 1 s'
           (pre ++ AFork (-1) :: post
            ++ [AStderr (perror_text Sample.no_fork "Failed to fork" s')])
     /\ forallb is_environ_write post = true)
  /\ (exists s' pre post,
        run Sample.parent_wait_fails (main Sample.parent_wait_fails) Sample.s0
          = Returned 1 s'
              (pre ++ AWait (-1) 0 :: post
               ++ [AStderr (perror_text Sample.parent_wait_fails
                              "Failed to wait for the child process" s')])
        /\ forallb is_environ_write post = true)
  /\ (exists s' pre post,
        run Sample.child_nothing_to_exec (main Sample.child_nothing_to_exec)
          Sample.s0
          = Returned 1 s'
              (pre ++ AExecvp "env" 200 201 (Some (-1)) :: post
               ++ [AStderr (perror_text Sample.child_nothing_to_exec
                              "Failed to execute execvpe" s')])
        /\ forallb is_environ_write post = true).
Proof.
  split; [ | split].
  - apply (main_failure_reported_and_fatal
             Sample.no_fork Sample.s0 (AFork (-1)));
      [vm_compute; repeat constructor | reflexivity].
  - apply (main_failure_reported_and_fatal
             Sample.parent_wait_fails Sample.s0 (AWait (-1) 0));
      [vm_compute; repeat constructor | reflexivity].
  - apply (main_failure_reported_and_fatal
             Sample.child_nothing_to_exec Sample.s0
             (AExecvp "env" 200 201 (Some (-1))));
      [vm_compute; repeat constructor | reflexivity].
Defined.




(** C9. When wait succeeded and the status it stored does not satisfy
    WIFEXITED, main prints the abnormal-termination message to standard
    output, does nothing after it, and returns 0. *)
Theorem abnormal_termination_reported_exit_0
    (P : Platform) (s : State) (r status : Z) :
  AWait r status ∈ trace (run P (main P) s) -> r <> -1 ->
  WIFEXITED P status = false ->
  exists s' pre,
    run P (main P) s
      = Returned 0 s'
          (pre ++ [AWait r status;
                   AStdout "
Child process exited with error
"]).
Proof.
  intros Hin Hr Hexited.
  destruct (run_main_cases P s); cbn in Hin; trace_member Hin;
    try congruence.
  eexists _, (main_prologue P s ++ [AFork pid])%list.
  by rewrite <- (assoc_L (++)).
Qed.

Lemma abnormal_termination_reported_exit_0_witness :
  exists s' pre,
    run Sample.parent_child_killed (main Sample.parent_child_killed) Sample.s0
      = Returned 0 s'
          (pre ++ [AWait 77 9;
                   AStdout "
Child process exited with error
"]).
Proof.
  apply (abnormal_termination_reported_exit_0
           Sample.parent_child_killed Sample.s0 77 9);
    [vm_compute; repeat constructor | lia | reflexivity].
Defined.

(** ** Further properties of the launcher *)

(** X1. Code sequenced after a call to execvpe whose exec succeeds is
    never executed: whatever the continuation, the run ends at the call to
    execvp, with [envp] installed. *)
Theorem nothing_runs_after_successful_execvpe
    (P : Platform) (file : string) (argv envp : ptr) (s : State)
    {R : Type} (k : Z -> prog R) :
  execvp P file argv (set_environ envp s) = None ->
  run P (execvpe file argv envp ≫= k) s
  = Replaced (set_environ envp s)
      [ARead (environ s); AWrite envp; AExecvp file argv envp None].
Proof. intros Hexec. by rewrite run_bind, run_execvpe, Hexec. Qed.

Lemma nothing_runs_after_successful_execvpe_witness :
  run Sample.child
    (execvpe "env" 101 102 ≫= fun _ => trigger (Perror "not reached"))
    Sample.s0
  = Replaced (set_environ 102 Sample.s0)
      [ARead (environ Sample.s0); AWrite 102; AExecvp "env" 101 102 None].
Proof.
  apply (nothing_runs_after_successful_execvpe
           Sample.child "env" 101 102 Sample.s0
           (fun _ => trigger (Perror "not reached"))).
  vm_compute; reflexivity.
Defined.

(** X2. Code sequenced after a call to execvpe whose exec fails runs with
    the value execvp returned, in the state of before the call except for
    errno, which is as execvp set it: the caller's environment is in force
    again and the restoring assignment has not disturbed the error
    number. *)
Theorem code_after_failed_execvpe_runs_in_restored_state
    (P : Platform) (file : string) (argv envp : ptr) (s : State) (r e : Z)
    {R : Type} (k : Z -> prog R) :
  execvp P file argv (set_environ envp s) = Some (r, e) ->
  run P (execvpe file argv envp ≫= k) s
  = prepend
      [ARead (environ s); AWrite envp; AExecvp file argv envp (Some r);
       AWrite (environ s)]
      (run P (k r) (set_errno e s)).
Proof. intros Hexec. by rewrite run_bind, run_execvpe, Hexec. Qed.

Lemma code_after_failed_execvpe_runs_in_restored_state_witness :
  run Sample.child
    (execvpe "nosuchprog" 101 102 ≫= fun _ => trigger (Perror "exec"))
    Sample.s0
  = prepend
      [ARead (environ Sample.s0); AWrite 102;
       AExecvp "nosuchprog" 101 102 (Some (-1));
       AWrite (environ Sample.s0)]
      (run Sample.child ((fun _ => trigger (Perror "exec")) (-1))
         (set_errno 2 Sample.s0)).
Proof.
  apply (code_after_failed_execvpe_runs_in_restored_state
           Sample.child "nosuchprog" 101 102 Sample.s0 (-1) 2
           (fun _ => trigger (Perror "exec"))).
  vm_compute; reflexivity.
Defined.

(** ** Further properties of the driver *)

(** X3. In every run main calls fork exactly once, and it does so after
    having printed the default path and set up its two arrays, whatever
    happens next. *)
Theorem main_forks_exactly_once (P : Platform) (s : State) :
  exists rest,
    trace (run P (main P) s)
      = (main_prologue P s ++ AFork (fork P (main_locals s)).1 :: rest)%list
    /\ existsb is_fork rest = false
    /\ count is_fork (trace (run P (main P) s)) = 1%nat.
Proof.
  destruct (run_main_cases P s) as [? Hfork | ? Hfork | ? ? ? Hfork
    | ? ? ? ? Hfork | ? ? ? ? ? Hfork | ? ? ? ? ? Hfork];
    rewrite Hfork; eexists; (split; [reflexivity | done]).
Qed.

(** X4. Whenever main calls execvp, the file is "env", argv points to the
    array {"env", NULL} and [environ] points to the array
    {"PATH=/bin:/usr/bin", NULL}, whatever the environment of main was;
    when the exec succeeds, that one-entry array is the environment in
    force in the state the new image starts from. *)
Theorem main_execs_env_with_one_entry_environment
    (P : Platform) (s : State) (file : string) (argv env : ptr)
    (r : option Z) :
  AExecvp file argv env r ∈ trace (run P (main P) s) ->
  file = "env"
  /\ heap (final_state (run P (main P) s)) !! argv = Some [Some "env"; None]
  /\ heap (final_state (run P (main P) s)) !! env
     = Some [Some "PATH=/bin:/usr/bin"; None]
  /\ (r = None -> environ (final_state (run P (main P) s)) = env).
Proof.
  intros Hin.
  destruct (run_main_cases P s); cbn in Hin; trace_member Hin; cbn;
    (split; [done | ]);
    (split; [rewrite lookup_insert_ne by lia; by rewrite lookup_insert_eq | ]);
    (split; [by rewrite lookup_insert_eq | done]).
Qed.

Lemma main_execs_env_with_one_entry_environment_witness :
  "env" = "env"
  /\ heap (final_state (run Sample.child (main Sample.child) Sample.s0)) !! 200
     = Some [Some "env"; None]
  /\ heap (final_state (run Sample.child (main Sample.child) Sample.s0)) !! 201
     = Some [Some "PATH=/bin:/usr/bin"; None]
  /\ (@None Z = None ->
      environ (final_state (run Sample.child (main Sample.child) Sample.s0))
      = 201).
Proof.
  apply (main_execs_env_with_one_entry_environment
           Sample.child Sample.s0 "env" 200 201 None).
  vm_compute; repeat constructor.
Defined.

(** X5. main leaves [environ] alone except through execvpe in the child:
    when main returns, [environ] is what it was when main started; it was
    assigned during the run only if execvp was called, and then first the
    replacement and then the old value; when main does not return, the
    replacement is installed. *)
Theorem main_leaves_environ (P : Platform) (s : State) :
  match run P (main P) s with
  | Returned _ s' t =>
      environ s' = environ s
      /\ environ_writes t
         = if existsb is_execvp t then [stack_top s + 1; environ s] else []
  | Replaced s' t =>
      environ s' = stack_top s + 1 /\ environ_writes t = [stack_top s + 1]
  end.
Proof. by destruct (run_main_cases P s). Qed.

(** X6. main calls perror, and so writes to standard error, exactly once
    in the runs where the platform reports an error (fork returns -1; in
    the child, execvp returns; in the parent, wait returns -1) and never
    in the others. *)
Theorem main_stderr_only_on_error (P : Platform) (s : State) :
  let pid := (fork P (main_locals s)).1 in
  let s2 := set_errno (fork P (main_locals s)).2 (main_locals s) in
  count is_stderr (trace (run P (main P) s))
  = if decide (pid = -1) then 1%nat
    else if decide (pid = 0) then
      match execvp P "env" (stack_top s) (set_environ (stack_top s + 1) s2)
      with
      | Some _ => 1%nat
      | None => 0%nat
      end
    else if decide ((wait P s2).1.1 = -1) then 1%nat
    else 0%nat.
Proof.
  cbv zeta.
  destruct (run_main_cases P s) as [e Hfork s2 | e Hfork s2 Hexec
    | e r e' Hfork s2 Hexec | pid e status e' Hfork Hpid1 Hpid0 s2 Hwait
    | pid e r status e' Hfork Hpid1 Hpid0 s2 Hwait Hr Hexited
    | pid e r status e' Hfork Hpid1 Hpid0 s2 Hwait Hr Hexited];
    rewrite Hfork; cbn [fst snd]; fold s2; rewrite ?Hexec, ?Hwait;
    cbn [fst snd]; repeat case_decide; done.
Qed.

(** X7. The child execs and does not wait; the parent waits and does not
    exec: with [pid] what fork returned, execvp is called once if [pid] is
    0 and never otherwise, and wait is called once if [pid] is neither -1
    nor 0 and never otherwise. *)
Theorem main_child_execs_parent_waits (P : Platform) (s : State) (pid : Z) :
  AFork pid ∈ trace (run P (main P) s) ->
  count is_execvp (trace (run P (main P) s))
    = (if decide (pid = 0) then 1%nat else 0%nat)
  /\ count is_wait (trace (run P (main P) s))
     = (if decide (pid = -1 \/ pid = 0) then 0%nat else 1%nat).
Proof.
  intros Hin.
  destruct (run_main_cases P s); cbn in Hin; trace_member Hin;
    unfold main_prologue; cbn;
    repeat case_decide; (done || lia || naive_solver).
Qed.

Lemma main_child_execs_parent_waits_witness :
  (count is_execvp (trace (run Sample.child (main Sample.child) Sample.s0))
     = (if decide (0 = 0) then 1%nat else 0%nat)
   /\ count is_wait (trace (run Sample.child (main Sample.child) Sample.s0))
      = (if decide (0 = -1 \/ 0 = 0) then 0%nat else 1%nat))
  /\ (count is_execvp
        (trace (run Sample.parent_child_killed
                  (main Sample.parent_child_killed) Sample.s0))
        = (if decide (77 = 0) then 1%nat else 0%nat)
      /\ count is_wait
           (trace (run Sample.parent_child_killed
                     (main Sample.parent_child_killed) Sample.s0))
         = (if decide (77 = -1 \/ 77 = 0) then 0%nat else 1%nat)).
Proof.
  split.
  - apply (main_child_execs_parent_waits Sample.child Sample.s0 0).
    vm_compute; repeat constructor.
  - apply (main_child_execs_parent_waits
             Sample.parent_child_killed Sample.s0 77).
    vm_compute; repeat constructor.
Defined.

(** X8. main stores into no array other than its own two: every array
    that is not at one of the two places main puts [args] and [new_envp]
    is, at the end of the run, as it was at the start. *)
Theorem main_stores_only_into_its_arrays
    (P : Platform) (s : State) (p : ptr) :
  p <> stack_top s -> p <> stack_top s + 1 ->
  heap (final_state (run P (main P) s)) !! p = heap s !! p.
Proof.
  intros Hargs Henvp.
  destruct (run_main_cases P s); cbn;
    by rewrite !lookup_insert_ne by lia.
Qed.

Lemma main_stores_only_into_its_arrays_witness :
  heap (final_state (run Sample.child_nothing_to_exec
                       (main Sample.child_nothing_to_exec) Sample.s0)) !! 100
  = heap Sample.s0 !! 100.
Proof.
  apply (main_stores_only_into_its_arrays
           Sample.child_nothing_to_exec Sample.s0 100);
    vm_compute; discriminate.
Defined.

(** X9. Child and parent together.  In the child, when execvp returns,
    main returns 1.  If the parent's wait then succeeds with a status that
    says the child exited, with the code the child's main returned, the
    last thing the parent does is to print that the child exited with
    code 1, and it returns 0. *)
Theorem parent_reports_child_exec_failure
    (Pc Pp : Platform) (sc sp : State) (ec rx ex pid ep r status e' : Z) :
  fork Pc (main_locals sc) = (0, ec) ->
  execvp Pc "env" (stack_top sc)
    (set_environ (stack_top sc + 1) (set_errno ec (main_locals sc)))
    = Some (rx, ex) ->
  fork Pp (main_locals sp) = (pid, ep) -> pid <> -1 -> pid <> 0 ->
  wait Pp (set_errno ep (main_locals sp)) = (r, status, e') -> r <> -1 ->
  WIFEXITED Pp status = true ->
  (forall c s' t,
     run Pc (main Pc) sc = Returned c s' t -> WEXITSTATUS Pp status = c) ->
  (exists s' t, run Pc (main Pc) sc = Returned 1 s' t)
  /\ exists pre,
       run Pp (main Pp) sp
       = Returned 0 (set_errno e' (set_errno ep (main_locals sp)))
           (pre ++ [AStdout "
Child process exited with code 1
"]).
Proof.
  intros Hforkc Hexecc Hforkp Hpid1 Hpid0 Hwaitp Hr Hexited Hcode.
  assert (exists s' t, run Pc (main Pc) sc = Returned 1 s' t) as Hchild.
  { destruct (run_main_cases Pc sc) as [e0 Hfork0 s2 | e0 Hfork0 s2 Hexec
      | e0 r0 e1 Hfork0 s2 Hexec
      | pid0 e0 status0 e1 Hfork0 Hp1 Hp0 s2 Hwait0
      | pid0 e0 r0 status0 e1 Hfork0 Hp1 Hp0 s2 Hwait0 Hr0 Hexited0
      | pid0 e0 r0 status0 e1 Hfork0 Hp1 Hp0 s2 Hwait0 Hr0 Hexited0];
      rewrite Hforkc in Hfork0; simplify_eq; [ | by eexists _, _].
    subst s2. rewrite Hexecc in Hexec. discriminate. }
  split; [exact Hchild | ].
  destruct Hchild as (s' & t & Hchild).
  specialize (Hcode 1 s' t Hchild).
  destruct (run_main_cases Pp sp) as [e0 Hfork0 s2 | e0 Hfork0 s2 Hexec
    | e0 r0 e1 Hfork0 s2 Hexec
    | pid0 e0 status0 e1 Hfork0 Hp1 Hp0 s2 Hwait0
    | pid0 e0 r0 status0 e1 Hfork0 Hp1 Hp0 s2 Hwait0 Hr0 Hexited0
    | pid0 e0 r0 status0 e1 Hfork0 Hp1 Hp0 s2 Hwait0 Hr0 Hexited0];
    rewrite Hforkp in Hfork0; simplify_eq;
    subst s2; rewrite Hwaitp in Hwait0; simplify_eq;
    try done; try congruence.
  rewrite Hcode.
  exists (main_prologue Pp sp ++ [AFork pid0; AWait r0 status0])%list.
  by rewrite <- (assoc_L (++)).
Qed.

Lemma parent_reports_child_exec_failure_witness :
  (exists s' t,
     run Sample.child_nothing_to_exec (main Sample.child_nothing_to_exec)
       Sample.s0
     = Returned 1 s' t)
  /\ exists pre,
       run Sample.parent_child_exits_1 (main Sample.parent_child_exits_1)
         Sample.s0
       = Returned 0 (set_errno 0 (set_errno 0 (main_locals Sample.s0)))
           (pre ++ [AStdout "
Child process exited with code 1
"]).
Proof.
  apply (parent_reports_child_exec_failure
           Sample.child_nothing_to_exec Sample.parent_child_exits_1
           Sample.s0 Sample.s0 0 (-1) 2 77 0 77 256 0);
    try (reflexivity || lia).
  intros c s' t Hrun. vm_compute in Hrun. by injection Hrun as <- _ _.
Defined.
